(** * agentframework_supervisor.py: a supervisor agent delegating to an MCP Jira agent

    Shallow embedding of [src/agentframework_supervisor.py].

    The script is glue code around three third-party libraries
    ([agent_framework], [langchain_mcp_adapters], [azure.identity]).  What the
    script itself computes (environment lookups, the provider branch, the
    arguments of every constructor, the module-level cache) is embedded as
    executable definitions; what the libraries and the remote services answer
    is an oracle, the record [World], over which every theorem quantifies.

    Python exceptions are values carrying their class name; the process state
    is threaded explicitly through a state-and-exception monad whose outcomes
    are "returned", "raised" and "never returned". *)

From Stdlib Require Import DecimalString.
From stdpp Require Import gmap strings list list_numbers fin_maps.

Open Scope string_scope.
Open Scope nat_scope.
Open Scope list_scope.

(** ** Python values used by the script *)

(** An exception instance: its class name and its message. *)
Record exception := PyExc { exc_class : string; exc_msg : string }.

(** [os.environ[key]] on a missing key. *)
Definition KeyError (key : string) : exception := PyExc "KeyError" key.

(** [None + "..."]: the operand types do not support [+]. *)
Definition TypeError_None_plus_str : exception :=
  PyExc "TypeError" "unsupported operand type(s) for +: 'NoneType' and 'str'".

(** Reading a module global before it was bound. *)
Definition NameError (name : string) : exception := PyExc "NameError" name.

Definition nl : string := String (Ascii.ascii_of_nat 10) EmptyString.

(** [str(n)] for a natural number, used by the f-string of the log line. *)
Definition str_of_nat (n : nat) : string :=
  NilEmpty.string_of_uint (Nat.to_uint n).

(** ** The process environment *)

(** [os.environ] is a dictionary from names to values. *)
Abbreviation environ := (gmap string string).

(** [load_dotenv(override=True)]: every variable of the [.env] file is put
    into [os.environ], replacing a value that is already there. *)
Definition load_dotenv_override (dotenv os_environ : environ) : environ :=
  dotenv ∪ os_environ.

(** [os.getenv(key, default)] and [os.environ.get(key, default)]. *)
Definition getenv_default (env : environ) (key default : string) : string :=
  match env !! key with
  | Some v => v
  | None => default
  end.

(** [os.environ.get(key)]: [None] when the variable is unset. *)
Definition environ_get (env : environ) (key : string) : option string :=
  env !! key.

(** [os.environ[key]]: raises [KeyError] when the variable is unset. *)
Definition environ_item (env : environ) (key : string) : exception + string :=
  match env !! key with
  | Some v => inr v
  | None => inl (KeyError key)
  end.

(** ** Configuration of the chat client (lines 20-42) *)

(** The [api_key] argument of [OpenAIChatClient]: a string, [None], or the
    callable made by [get_bearer_token_provider(DefaultAzureCredential(), scope)]. *)
Inductive api_key_arg :=
  | StaticKey (key : string)
  | NoKey
  | BearerTokenProvider (scope : string).

(** The keyword arguments of one [OpenAIChatClient(...)] call; an argument
    that is not passed, or is passed as [None], is [None]. *)
Record ClientArgs := {
  base_url : option string;
  api_key : api_key_arg;
  model_id : option string;
}.

Definition api_key_of_option (o : option string) : api_key_arg :=
  match o with
  | Some k => StaticKey k
  | None => NoKey
  end.

(** [API_HOST = os.getenv("API_HOST", "github")]. *)
Definition API_HOST (env : environ) : string :=
  getenv_default env "API_HOST" "github".

(** The [if]/[elif]/[else] chain on [API_HOST]: the arguments the script
    passes to [OpenAIChatClient], or the exception raised while they are
    evaluated. Keyword arguments are evaluated left to right. *)
Definition client_args (env : environ) : exception + ClientArgs :=
  if String.eqb (API_HOST env) "azure" then
    match environ_get env "AZURE_OPENAI_ENDPOINT" with
    | None => inl TypeError_None_plus_str
    | Some endpoint =>
        inr {| base_url := Some (endpoint ++ "/openai/v1/")%string;
               api_key := BearerTokenProvider "https://cognitiveservices.azure.com/.default";
               model_id := environ_get env "AZURE_OPENAI_CHAT_DEPLOYMENT" |}
    end
  else if String.eqb (API_HOST env) "github" then
    match environ_item env "GITHUB_TOKEN" with
    | inl e => inl e
    | inr token =>
        inr {| base_url := Some "https://models.github.ai/inference";
               api_key := StaticKey token;
               model_id := Some (getenv_default env "GITHUB_MODEL" "openai/gpt-4o") |}
    end
  else if String.eqb (API_HOST env) "ollama" then
    inr {| base_url := Some (getenv_default env "OLLAMA_ENDPOINT" "http://localhost:11434/v1");
           api_key := StaticKey "none";
           model_id := Some (getenv_default env "OLLAMA_MODEL" "llama3.1:latest") |}
  else
    inr {| base_url := None;
           api_key := api_key_of_option (environ_get env "OPENAI_API_KEY");
           model_id := Some (getenv_default env "OPENAI_MODEL" "gpt-4o") |}.

(** ** Objects, the process state and the outside world *)

(** One server entry of the dictionary given to [MultiServerMCPClient]. *)
Record ServerConfig := {
  command : string;
  args : list string;
  env : gmap string string;
  transport : string;
}.

Abbreviation McpConfig := (gmap string ServerConfig).

(** A tool as discovery returns it: a name and a parameter schema. *)
Record Tool := { tool_name : string; tool_schema : string }.

(** The keyword arguments of one [ChatAgent(...)] call. Objects are referred
    to by their identity; [tools] or [agents] not passed is the empty list. *)
Record AgentArgs := {
  chat_client : nat;
  instructions : string;
  agent_name : string;
  tools : list Tool;
  agents : list nat;
}.




(** The objects the script creates. *)
Inductive Obj :=
  | ChatClientObj (a : ClientArgs)
  | McpClientObj (c : McpConfig)
  | ChatAgentObj (a : AgentArgs).

(** Calls that leave the script, in the order they are made. [EvClose] is the
    teardown of an MCP client. *)
Inductive Event :=
  | EvChatClient (id : nat) (a : ClientArgs)
  | EvMcpClient (id : nat) (c : McpConfig)
  | EvGetTools (id : nat)
  | EvLogInfo (msg : string)
  | EvChatAgent (id : nat) (a : AgentArgs)
  | EvRun (agent : nat) (request : string)
  | EvRunReturned (rounds : nat)
  | EvRunRaised (rounds : nat)
  | EvPrint (line : string)
  | EvClose (id : nat).

(** The module globals [client], [_jira_agent] and [_mcp_client], the object
    store with its allocation counter, and the calls made so far. *)
Record PState := {
  g_client : option nat;
  g_jira_agent : option nat;
  g_mcp_client : option nat;
  heap : gmap nat Obj;
  next_id : nat;
  trace : list Event;
}.

Definition initial_state : PState :=
  {| g_client := None; g_jira_agent := None; g_mcp_client := None;
     heap := ∅; next_id := 0; trace := [] |}.

(** How one [agent.run(request)] of the agent library ends: it returns a
    response after some invocation rounds, raises after some rounds, or
    never returns. *)
Inductive RunOutcome :=
  | RunCompleted (rounds : nat) (text : string)
  | RunFailed (rounds : nat) (e : exception)
  | RunDiverges.

(** The answers of the libraries and remote services. A constructor answers
    [Some e] when it raises [e]. [w_get_tools] is asked per client object,
    [w_run] sees the object store, the agent and the request. *)
Record World := {
  w_chat_client : ClientArgs → option exception;
  w_mcp_client : McpConfig → option exception;
  w_get_tools : nat → McpConfig → exception + list Tool;
  w_chat_agent : AgentArgs → option exception;
  w_run : gmap nat Obj → nat → string → RunOutcome;
}.

(** ** The state-and-exception monad *)

Inductive Outcome (A : Type) :=
  | Returned (a : A) (s : PState)
  | Raised (e : exception) (s : PState)
  | Diverged (s : PState).
Arguments Returned {A} a s.
Arguments Raised {A} e s.
Arguments Diverged {A} s.

Definition M (A : Type) : Type := PState → Outcome A.

Definition ret {A} (a : A) : M A := fun s => Returned a s.

Definition bind {A B} (c : M A) (k : A → M B) : M B :=
  fun s =>
    match c s with
    | Returned a s1 => k a s1
    | Raised e s1 => Raised e s1
    | Diverged s1 => Diverged s1
    end.

Definition raise {A} (e : exception) : M A := fun s => Raised e s.

Notation "'let*' x ':=' c 'in' k" := (bind c (fun x => k))
  (at level 10, x name, c at level 100, k at level 200).
Notation "'let*' ' pat ':=' c 'in' k" :=
  (bind c (fun x => match x with pat => k end))
  (at level 10, pat pattern, c at level 100, k at level 200).
Notation "c ';;' k" := (bind c (fun _ => k))
  (at level 100, k at level 200, right associativity).

Definition final_state {A} (o : Outcome A) : PState :=
  match o with
  | Returned _ s | Raised _ s | Diverged s => s
  end.

(** The state after one more outside call. *)
Definition log_event (ev : Event) (s : PState) : PState :=
  {| g_client := g_client s; g_jira_agent := g_jira_agent s;
     g_mcp_client := g_mcp_client s; heap := heap s;
     next_id := next_id s; trace := trace s ++ [ev] |}.

Definition emit (ev : Event) : M unit := fun s => Returned tt (log_event ev s).

(** The state after a new object was put in the store. *)
Definition store_object (o : Obj) (s : PState) : PState :=
  {| g_client := g_client s; g_jira_agent := g_jira_agent s;
     g_mcp_client := g_mcp_client s; heap := <[next_id s := o]> (heap s);
     next_id := S (next_id s); trace := trace s |}.

(** Put a new object in the store and return its identity. *)
Definition alloc (o : Obj) : M nat :=
  fun s => Returned (next_id s) (store_object o s).

(** A constructor call: the call is made, and either raises or yields a new
    object. *)
Definition construct (ev : nat → Event) (answer : option exception) (o : Obj) : M nat :=
  fun s =>
    match answer with
    | Some e => (emit (ev (next_id s)) ;; raise e) s
    | None => (emit (ev (next_id s)) ;; alloc o) s
    end.

Definition get_state : M PState := fun s => Returned s s.

(** The state after [client = ...]. *)
Definition bind_client (c : nat) (s : PState) : PState :=
  {| g_client := Some c; g_jira_agent := g_jira_agent s;
     g_mcp_client := g_mcp_client s; heap := heap s;
     next_id := next_id s; trace := trace s |}.

Definition set_client (c : nat) : M unit := fun s => Returned tt (bind_client c s).

(** The state after [_jira_agent, _mcp_client = agent, mcp_client]. *)
Definition bind_jira_globals (agent mcp_client : nat) (s : PState) : PState :=
  {| g_client := g_client s; g_jira_agent := Some agent;
     g_mcp_client := Some mcp_client; heap := heap s;
     next_id := next_id s; trace := trace s |}.

Definition set_jira_globals (agent mcp_client : nat) : M unit :=
  fun s => Returned tt (bind_jira_globals agent mcp_client s).

(** ** The script *)

Section Script.

Variable w : World.

(** [OpenAIChatClient(...)]. *)
Definition new_chat_client (a : ClientArgs) : M nat :=
  fun s => construct (fun id => EvChatClient id a) (w_chat_client w a) (ChatClientObj a) s.

(** [MultiServerMCPClient(...)]. *)
Definition new_mcp_client (c : McpConfig) : M nat :=
  fun s => construct (fun id => EvMcpClient id c) (w_mcp_client w c) (McpClientObj c) s.

(** [ChatAgent(...)]. *)
Definition new_chat_agent (a : AgentArgs) : M nat :=
  fun s => construct (fun id => EvChatAgent id a) (w_chat_agent w a) (ChatAgentObj a) s.

(** [await mcp_client.get_tools()]: the client connects to the servers of its
    configuration and lists their tools. *)
Definition get_tools (mcp_client : nat) : M (list Tool) :=
  let* s := get_state in
  match heap s !! mcp_client with
  | Some (McpClientObj c) =>
      emit (EvGetTools mcp_client) ;;
      match w_get_tools w mcp_client c with
      | inl e => raise e
      | inr found => ret found
      end
  | _ => raise (PyExc "AttributeError" "get_tools")
  end.

(** [await agent.run(request)], returning [response.text]. *)
Definition agent_run (agent : nat) (request : string) : M string :=
  let* s := get_state in
  emit (EvRun agent request) ;;
  match w_run w (heap s) agent request with
  | RunCompleted rounds text => emit (EvRunReturned rounds) ;; ret text
  | RunFailed rounds e => emit (EvRunRaised rounds) ;; raise e
  | RunDiverges => fun s1 => Diverged s1
  end.

Definition logger_info (msg : string) : M unit := emit (EvLogInfo msg).

Definition print (line : string) : M unit := emit (EvPrint line).

(** Reading the module global [client]. *)
Definition read_client : M nat :=
  let* s := get_state in
  match g_client s with
  | Some c => ret c
  | None => raise (NameError "client")
  end.

(** Module initialisation, lines 21-42: [load_dotenv] has already produced
    [environ]. *)
Definition configure_client (environ : environ) : M unit :=
  match client_args environ with
  | inl e => raise e
  | inr a => let* c := new_chat_client a in set_client c
  end.

(** The dictionary given to [MultiServerMCPClient] (lines 52-69). *)
Definition mcp_atlassian : ServerConfig :=
  {| command := "docker";
     args := ["run"; "-i"; "--rm";
              "-e"; "JIRA_URL";
              "-e"; "JIRA_USERNAME";
              "-e"; "JIRA_API_TOKEN";
              "ghcr.io/sooperset/mcp-atlassian:latest"];
     env := {[ "JIRA_URL" := ""; "JIRA_USERNAME" := "XXXXXX"; "JIRA_API_TOKEN" := "XXXXX" ]};
     transport := "stdio" |}.

Definition mcp_servers : McpConfig := {[ "mcp-atlassian" := mcp_atlassian ]}.

(** [create_mcp_client] (lines 48-76). *)
Definition create_mcp_client : M (list Tool * nat) :=
  let* mcp_client := new_mcp_client mcp_servers in
  let* found := get_tools mcp_client in
  logger_info ("Discovered " ++ str_of_nat (length found) ++ " MCP Jira tools") ;;
  ret (found, mcp_client).

Definition jira_instructions : string :=
  "You're an expert MCP agent that helps users interact with Jira tickets effectively. "
  ++ "You have access to comprehensive Jira operations through MCP tools that were automatically discovered. "
  ++ "Key responsibilities:" ++ nl
  ++ "1. When retrieving ticket information, provide clear, structured summaries" ++ nl
  ++ "3. If a description is missing, ask the user to provide it" ++ nl
  ++ "4. If a description is not in BDD format, explain BDD format and ask for correction" ++ nl
  ++ "5. When searching tickets, use appropriate JQL queries" ++ nl
  ++ "6. Always validate input parameters before making Jira calls" ++ nl
  ++ "7. Use the available MCP tools: jira_get_issue, jira_search etc." ++ nl ++ nl
  ++ "BDD Format Examples:" ++ nl
  ++ "- Given [initial context]" ++ nl
  ++ "- When [action occurs]" ++ nl
  ++ "- Then [expected outcome]" ++ nl ++ nl
  ++ "Or:" ++ nl
  ++ "- Scenario: [scenario name]" ++ nl
  ++ "- Given [preconditions]" ++ nl
  ++ "- When [action]" ++ nl
  ++ "- Then [expected result]".

(** The arguments of the [ChatAgent(...)] call of lines 87-111. *)
Definition jira_agent_args (client : nat) (jira_tools : list Tool) : AgentArgs :=
  {| chat_client := client;
     instructions := jira_instructions;
     agent_name := "MCP Jira Agent";
     tools := jira_tools;
     agents := [] |}.

(** [create_jira_mcp_agent] (lines 82-113). *)
Definition create_jira_mcp_agent : M (nat * nat) :=
  let* '(jira_tools, mcp_client) := create_mcp_client in
  let* client := read_client in
  let* jira_agent := new_chat_agent (jira_agent_args client jira_tools) in
  ret (jira_agent, mcp_client).

(** [get_jira_agent] (lines 119-126): the module-level cache. *)
Definition get_jira_agent : M nat :=
  let* s := get_state in
  match g_jira_agent s with
  | None =>
      let* '(jira_agent, mcp_client) := create_jira_mcp_agent in
      set_jira_globals jira_agent mcp_client ;;
      ret jira_agent
  | Some jira_agent => ret jira_agent
  end.

Definition supervisor_instructions : string :=
  "You are a supervisor managing specialist agents including the MCP Jira Agent. "
  ++ "Your job is to analyze user requests and delegate tasks to the appropriate agents. "
  ++ "For Jira-related requests (ticket creation, retrieval, updates, searches), "
  ++ "delegate to the MCP Jira Agent. "
  ++ "Always provide context and clear instructions when delegating tasks. "
  ++ "The Jira agent has full access to all Jira MCP tools automatically.".

(** The arguments of the [ChatAgent(...)] call of lines 138-150. *)
Definition supervisor_args (client jira_agent : nat) : AgentArgs :=
  {| chat_client := client;
     instructions := supervisor_instructions;
     agent_name := "Supervisor Agent";
     tools := [];
     agents := [jira_agent] |}.

(** [create_supervisor_agent] (lines 133-152). *)
Definition create_supervisor_agent : M nat :=
  let* jira_agent := get_jira_agent in
  let* client := read_client in
  new_chat_agent (supervisor_args client jira_agent).

Definition user_ticket_number : string := "AUT-633".

(** The ticket emoji of the banner, U+1F3AB, as its UTF-8 bytes. *)
Definition ticket_emoji : string :=
  String (Ascii.ascii_of_nat 240) (String (Ascii.ascii_of_nat 159)
    (String (Ascii.ascii_of_nat 142) (String (Ascii.ascii_of_nat 171) EmptyString))).

Definition banner : string :=
  ticket_emoji ++ " Retrieving Jira ticket: " ++ user_ticket_number.

Definition request : string :=
  "Please get the details for ticket " ++ user_ticket_number.

(** [main] (lines 154-165). *)
Definition main : M unit :=
  let* supervisor := create_supervisor_agent in
  print banner ;;
  let* text := agent_run supervisor request in
  print text.

(** The whole script run as a program: module initialisation, then
    [asyncio.run(main())]. *)
Definition script (dotenv os_environ : environ) : M unit :=
  configure_client (load_dotenv_override dotenv os_environ) ;;
  main.

End Script.

(** The exit status of the interpreter: 0 when the script ran to its end, 1
    when an exception reached the top level, none while it has not ended. *)
Definition exit_status {A} (o : Outcome A) : option nat :=
  match o with
  | Returned _ _ => Some 0
  | Raised _ _ => Some 1
  | Diverged _ => None
  end.

(** One run of the program from a fresh process. *)
Definition run_script (w : World) (dotenv os_environ : environ) : Outcome unit :=
  script w dotenv os_environ initial_state.

(** ** Sequences of calls and measures on the calls made *)

(** [n] successive calls of the cached accessor, collecting what they return. *)
Fixpoint get_jira_agent_times (w : World) (n : nat) : M (list nat) :=
  match n with
  | 0 => ret []
  | S k =>
      let* a := get_jira_agent w in
      let* rest := get_jira_agent_times w k in
      ret (a :: rest)
  end.


(** The client objects on which discovery was attempted, in order. *)
Definition connections (tr : list Event) : list nat :=
  omap (fun ev => match ev with EvGetTools id => Some id | _ => None end) tr.

(** The agent objects whose construction was attempted, in order. *)
Definition constructed_agents (tr : list Event) : list nat :=
  omap (fun ev => match ev with EvChatAgent id _ => Some id | _ => None end) tr.

(** The number of discoveries, and of agent constructions, among calls. *)
Definition discoveries (tr : list Event) : nat := length (connections tr).

Definition agent_constructions (tr : list Event) : nat :=
  length (constructed_agents tr).

(** The client objects that were torn down. *)
Definition released (tr : list Event) : list nat :=
  omap (fun ev => match ev with EvClose id => Some id | _ => None end) tr.



(** The parameters the issue-tracker tool source requires. *)
Definition required_parameters : list string :=
  ["JIRA_URL"; "JIRA_USERNAME"; "JIRA_API_TOKEN"].

Definition missing_or_empty (c : ServerConfig) (name : string) : bool :=
  match env c !! name with
  | None => true
  | Some v => String.eqb v ""
  end.

Definition lacks_required_parameter (c : ServerConfig) : bool :=
  existsb (missing_or_empty c) required_parameters.


(** The provider names that have a branch of their own. *)
Definition named_provider (host : string) : bool :=
  String.eqb host "azure" || String.eqb host "github" || String.eqb host "ollama".

(** The state in which discovery is attempted: the client object is stored
    and [get_tools] has been called on it. *)
Definition connecting (s : PState) : PState :=
  log_event (EvGetTools (next_id s))
    (store_object (McpClientObj mcp_servers)
       (log_event (EvMcpClient (next_id s) mcp_servers) s)).

(** The state in which the supervisor is running the request. *)
Definition running (supervisor : nat) (s : PState) : PState :=
  log_event (EvRun supervisor request) (log_event (EvPrint banner) s).



(** ** Sample worlds and environments *)

Definition sample_tools : list Tool :=
  [ {| tool_name := "jira_get_issue"; tool_schema := "{issue_key: string}" |};
    {| tool_name := "jira_search"; tool_schema := "{jql: string}" |} ].

(** Every library call succeeds; the run ends after one round. *)
Definition cooperative_world : World :=
  {| w_chat_client := fun _ => None;
     w_mcp_client := fun _ => None;
     w_get_tools := fun _ _ => inr sample_tools;
     w_chat_agent := fun _ => None;
     w_run := fun _ _ _ => RunCompleted 1 "AUT-633: Fix bug (Open)" |}.



(** Discovery succeeds, then the construction of the Jira agent raises. *)
Definition agent_failure_world : World :=
  {| w_chat_client := fun _ => None;
     w_mcp_client := fun _ => None;
     w_get_tools := fun _ _ => inr sample_tools;
     w_chat_agent := fun _ => Some (PyExc "ValueError" "invalid tool");
     w_run := fun _ _ _ => RunCompleted 1 "AUT-633: Fix bug (Open)" |}.

Definition github_environ : environ := {[ "GITHUB_TOKEN" := "t0k" ]}.

Definition bogus_environ : environ :=
  {[ "API_HOST" := "bogus"; "OPENAI_API_KEY" := "sk-1" ]}.


Definition azure_no_deployment : environ :=
  {[ "API_HOST" := "azure"; "AZURE_OPENAI_ENDPOINT" := "https://res.openai.azure.com" ]}.


(** ** Further measures on the calls made *)



(** The chat clients and MCP clients whose construction was attempted. *)
Definition chat_clients (tr : list Event) : list nat :=
  omap (fun ev => match ev with EvChatClient id _ => Some id | _ => None end) tr.

Definition mcp_clients (tr : list Event) : list nat :=
  omap (fun ev => match ev with EvMcpClient id _ => Some id | _ => None end) tr.

(** The requests given to an agent's [run]. *)
Definition run_requests (tr : list Event) : list (nat * string) :=
  omap (fun ev => match ev with EvRun a r => Some (a, r) | _ => None end) tr.

(** The line logged after a discovery that found [found]. *)
Definition discovered_line (found : list Tool) : string :=
  "Discovered " ++ str_of_nat (length found) ++ " MCP Jira tools".

(** The state in which the Jira agent has been built on the tools [found]
    and both globals are bound. *)
Definition jira_agent_cached (c : nat) (found : list Tool) (s : PState) : PState :=
  bind_jira_globals (S (next_id s)) (next_id s)
    (store_object (ChatAgentObj (jira_agent_args c found))
       (log_event (EvChatAgent (S (next_id s)) (jira_agent_args c found))
          (log_event (EvLogInfo (discovered_line found)) (connecting s)))).

(** Two supervisors built one after the other. *)
Definition create_supervisor_twice (w : World) : M (nat * nat) :=
  let* first := create_supervisor_agent w in
  let* second := create_supervisor_agent w in
  ret (first, second).



(** ** Proof automation *)

Ltac unfold_script :=
  unfold script, main, create_supervisor_agent, get_jira_agent,
    create_jira_mcp_agent, create_mcp_client, read_client, agent_run,
    get_tools, new_chat_agent, new_mcp_client, new_chat_client, construct,
    logger_info, print, set_jira_globals, set_client, alloc, emit, raise,
    ret, bind, get_state.

Ltac reduce_state :=
  cbn [heap next_id trace g_client g_jira_agent g_mcp_client
       store_object log_event bind_client bind_jira_globals final_state].


(** * Properties *)

(** ** The chat client configuration *)

Example client_args_github :
  client_args github_environ =
  inr {| base_url := Some "https://models.github.ai/inference";
         api_key := StaticKey "t0k";
         model_id := Some "openai/gpt-4o" |}.
Proof. vm_compute. reflexivity. Qed.

Example client_args_azure_empty_endpoint :
  client_args {[ "API_HOST" := "azure"; "AZURE_OPENAI_ENDPOINT" := "" ]} =
  inr {| base_url := Some "/openai/v1/";
         api_key := BearerTokenProvider "https://cognitiveservices.azure.com/.default";
         model_id := None |}.
Proof. vm_compute. reflexivity. Qed.

Lemma API_HOST_unset (env : environ) :
  env !! "API_HOST" = None → API_HOST env = "github".
Proof. intros H. unfold API_HOST, getenv_default. by rewrite H. Qed.


(** C10. When [API_HOST] is unset the github profile is selected: a missing
    [GITHUB_TOKEN] makes module initialisation raise [KeyError] before any
    call is made, and otherwise the client is given the fixed GitHub
    inference endpoint, the token, and the model [GITHUB_MODEL], which is
    "openai/gpt-4o" when unset. *)
Theorem github_profile_is_default (w : World) (env : environ) (s : PState) :
  env !! "API_HOST" = None →
  match env !! "GITHUB_TOKEN" with
  | None => configure_client w env s = Raised (KeyError "GITHUB_TOKEN") s
  | Some token =>
      client_args env =
        inr {| base_url := Some "https://models.github.ai/inference";
               api_key := StaticKey token;
               model_id := Some (match env !! "GITHUB_MODEL" with
                                 | Some model => model
                                 | None => "openai/gpt-4o"
                                 end) |}
      ∧ trace (final_state (configure_client w env s)) =
          trace s ++ [EvChatClient (next_id s)
                        {| base_url := Some "https://models.github.ai/inference";
                           api_key := StaticKey token;
                           model_id := Some (match env !! "GITHUB_MODEL" with
                                             | Some model => model
                                             | None => "openai/gpt-4o"
                                             end) |}]
  end.
Proof.
  intros Hhost.
  unfold configure_client, client_args, environ_item.
  rewrite (API_HOST_unset env Hhost). simpl.
  destruct (env !! "GITHUB_TOKEN") as [token | ]; [ | reflexivity].
  split; [reflexivity | ].
  unfold bind, new_chat_client, construct, getenv_default.
  destruct (w_chat_client w _); reflexivity.
Qed.

Lemma github_profile_is_default_witness :
  github_environ !! "API_HOST" = None
  ∧ client_args github_environ =
      inr {| base_url := Some "https://models.github.ai/inference";
             api_key := StaticKey "t0k";
             model_id := Some "openai/gpt-4o" |}.
Proof.
  assert (H : github_environ !! "API_HOST" = None) by (vm_compute; reflexivity).
  split; [exact H | ].
  exact (proj1 (github_profile_is_default cooperative_world github_environ initial_state H)).
Defined.

Lemma named_provider_false (host : string) :
  named_provider host = false →
  String.eqb host "azure" = false ∧ String.eqb host "github" = false
  ∧ String.eqb host "ollama" = false.
Proof.
  unfold named_provider. intros H.
  apply orb_false_elim in H as [H Ho]. apply orb_false_elim in H as [Ha Hg]. done.
Qed.

Lemma configure_client_calls (w : World) (env : environ) (a : ClientArgs) (s : PState) :
  client_args env = inr a →
  trace (final_state (configure_client w env s)) =
    trace s ++ [EvChatClient (next_id s) a].
Proof.
  intros Ha. unfold configure_client. rewrite Ha.
  unfold bind, new_chat_client, construct.
  destruct (w_chat_client w a); reflexivity.
Qed.

(** C3, as the script behaves. A value of [API_HOST] other than "azure",
    "github" and "ollama" raises nothing: the [else] branch configures the
    client for the OpenAI service, with the key [OPENAI_API_KEY] (absent when
    unset) and the model [OPENAI_MODEL], "gpt-4o" when unset, and the client
    constructor is called with these arguments. *)
Theorem other_provider_uses_openai_profile (w : World) (env : environ) (s : PState) :
  named_provider (API_HOST env) = false →
  client_args env =
    inr {| base_url := None;
           api_key := api_key_of_option (env !! "OPENAI_API_KEY");
           model_id := Some (getenv_default env "OPENAI_MODEL" "gpt-4o") |}
  ∧ trace (final_state (configure_client w env s)) =
      trace s ++ [EvChatClient (next_id s)
                    {| base_url := None;
                       api_key := api_key_of_option (env !! "OPENAI_API_KEY");
                       model_id := Some (getenv_default env "OPENAI_MODEL" "gpt-4o") |}].
Proof.
  intros H. apply named_provider_false in H as (Ha & Hg & Ho).
  assert (Hargs : client_args env =
    inr {| base_url := None;
           api_key := api_key_of_option (env !! "OPENAI_API_KEY");
           model_id := Some (getenv_default env "OPENAI_MODEL" "gpt-4o") |}).
  { unfold client_args. rewrite Ha, Hg, Ho. reflexivity. }
  split; [exact Hargs | ].
  by apply configure_client_calls.
Qed.

Lemma other_provider_uses_openai_profile_witness :
  named_provider (API_HOST bogus_environ) = false
  ∧ client_args bogus_environ =
      inr {| base_url := None;
             api_key := api_key_of_option (bogus_environ !! "OPENAI_API_KEY");
             model_id := Some (getenv_default bogus_environ "OPENAI_MODEL" "gpt-4o") |}.
Proof.
  assert (H : named_provider (API_HOST bogus_environ) = false)
    by (vm_compute; reflexivity).
  split; [exact H | ].
  exact (proj1 (other_provider_uses_openai_profile cooperative_world bogus_environ
                  initial_state H)).
Defined.

(** C3, as stated, fails: with [API_HOST=bogus] and an OpenAI key in the
    environment, no exception is raised, the client is configured with the
    OpenAI defaults, and the program runs to its end. *)
Lemma unsupported_provider_not_rejected :
  named_provider (API_HOST bogus_environ) = false
  ∧ client_args bogus_environ =
      inr {| base_url := None; api_key := StaticKey "sk-1"; model_id := Some "gpt-4o" |}
  ∧ (∀ e, client_args bogus_environ ≠ inl e)
  ∧ exit_status (run_script cooperative_world ∅ bogus_environ) = Some 0.
Proof.
  assert (H : client_args bogus_environ =
    inr {| base_url := None; api_key := StaticKey "sk-1"; model_id := Some "gpt-4o" |})
    by (vm_compute; reflexivity).
  split; [vm_compute; reflexivity | ].
  split; [exact H | ].
  split; [intros e He; rewrite H in He; discriminate | ].
  vm_compute. reflexivity.
Qed.



(** ** Discovery *)

Lemma create_mcp_client_eq (w : World) (s : PState) :
  create_mcp_client w s =
    match w_mcp_client w mcp_servers with
    | Some e => Raised e (log_event (EvMcpClient (next_id s) mcp_servers) s)
    | None =>
        match w_get_tools w (next_id s) mcp_servers with
        | inl e => Raised e (connecting s)
        | inr found =>
            Returned (found, next_id s)
              (log_event
                 (EvLogInfo ("Discovered " ++ str_of_nat (length found)
                               ++ " MCP Jira tools")%string)
                 (connecting s))
        end
    end.
Proof.
  unfold_script.
  destruct (w_mcp_client w mcp_servers) as [e | ]; [reflexivity | ].
  reduce_state. rewrite lookup_insert_eq.
  destruct (w_get_tools w (next_id s) mcp_servers); reflexivity.
Qed.

Lemma connections_app (tr1 tr2 : list Event) :
  connections (tr1 ++ tr2) = connections tr1 ++ connections tr2.
Proof. apply omap_app. Qed.

Lemma constructed_agents_app (tr1 tr2 : list Event) :
  constructed_agents (tr1 ++ tr2) = constructed_agents tr1 ++ constructed_agents tr2.
Proof. apply omap_app. Qed.


(** C2, as the script behaves. [create_mcp_client] validates nothing. Its
    configuration is fixed and has an empty [JIRA_URL]; it is handed to the
    MCP client constructor as it is, and unless that constructor raises, the
    connection is attempted. The only errors are those of the constructor
    and of [get_tools]. *)
Theorem discovery_validates_nothing (w : World) (s : PState) :
  lacks_required_parameter mcp_atlassian = true
  ∧ match w_mcp_client w mcp_servers with
    | Some e =>
        create_mcp_client w s =
          Raised e (log_event (EvMcpClient (next_id s) mcp_servers) s)
    | None =>
        connections (trace (final_state (create_mcp_client w s))) =
          connections (trace s) ++ [next_id s]
        ∧ match w_get_tools w (next_id s) mcp_servers with
          | inl e => ∃ s', create_mcp_client w s = Raised e s'
          | inr found => ∃ s', create_mcp_client w s = Returned (found, next_id s) s'
          end
    end.
Proof.
  split; [vm_compute; reflexivity | ].
  rewrite create_mcp_client_eq.
  destruct (w_mcp_client w mcp_servers) as [e | ]; [reflexivity | ].
  destruct (w_get_tools w (next_id s) mcp_servers) as [e | found].
  - split; [ | by eexists].
    unfold connecting. reduce_state. rewrite !connections_app. simpl.
    by rewrite app_nil_r.
  - split; [ | by eexists].
    unfold connecting. reduce_state. rewrite !connections_app. simpl.
    by rewrite !app_nil_r.
Qed.

(** C2, as stated, fails: the configuration of the script lacks a required
    parameter ([JIRA_URL] is empty), and discovery connects and returns the
    tools of the server without raising. *)
Lemma discovery_proceeds_with_empty_url :
  env mcp_atlassian !! "JIRA_URL" = Some ""
  ∧ lacks_required_parameter mcp_atlassian = true
  ∧ ∃ s', create_mcp_client cooperative_world initial_state
            = Returned (sample_tools, 0) s'
          ∧ connections (trace s') = [0].
Proof.
  split; [vm_compute; reflexivity | ].
  split; [vm_compute; reflexivity | ].
  eexists. split; [rewrite create_mcp_client_eq; reflexivity | ].
  reflexivity.
Qed.



(** ** The cached accessor *)

Lemma create_jira_mcp_agent_eq (w : World) (s : PState) :
  create_jira_mcp_agent w s =
    match create_mcp_client w s with
    | Returned (found, mcp_client) s1 =>
        match g_client s1 with
        | None => Raised (NameError "client") s1
        | Some c =>
            match w_chat_agent w (jira_agent_args c found) with
            | Some e =>
                Raised e (log_event (EvChatAgent (next_id s1) (jira_agent_args c found)) s1)
            | None =>
                Returned (next_id s1, mcp_client)
                  (store_object (ChatAgentObj (jira_agent_args c found))
                     (log_event (EvChatAgent (next_id s1) (jira_agent_args c found)) s1))
            end
        end
    | Raised e s1 => Raised e s1
    | Diverged s1 => Diverged s1
    end.
Proof.
  unfold create_jira_mcp_agent. unfold bind at 1.
  destruct (create_mcp_client w s) as [[found mcp_client] s1 | e s1 | s1];
    [ | reflexivity | reflexivity].
  unfold_script.
  destruct (g_client s1) as [c | ]; [ | reflexivity].
  destruct (w_chat_agent w (jira_agent_args c found)); reflexivity.
Qed.

(** A filled cache is returned as it is: nothing is called, nothing changes. *)
Lemma get_jira_agent_cached (w : World) (s : PState) (a : nat) :
  g_jira_agent s = Some a → get_jira_agent w s = Returned a s.
Proof. intros H. unfold get_jira_agent, bind, get_state. rewrite H. reflexivity. Qed.

(** With an empty cache the agent is built and both globals are bound. *)
Lemma get_jira_agent_fresh (w : World) (s : PState) :
  g_jira_agent s = None →
  get_jira_agent w s =
    match create_jira_mcp_agent w s with
    | Returned (jira_agent, mcp_client) s1 =>
        Returned jira_agent (bind_jira_globals jira_agent mcp_client s1)
    | Raised e s1 => Raised e s1
    | Diverged s1 => Diverged s1
    end.
Proof.
  intros Hc. unfold get_jira_agent, bind at 1, get_state. rewrite Hc.
  unfold bind at 1.
  destruct (create_jira_mcp_agent w s) as [[jira_agent mcp_client] s1 | e s1 | s1];
    reflexivity.
Qed.

(** A call that returns leaves the agent it returns in the cache. *)
Lemma get_jira_agent_fills (w : World) (s s1 : PState) (a : nat) :
  get_jira_agent w s = Returned a s1 → g_jira_agent s1 = Some a.
Proof.
  destruct (g_jira_agent s) as [a0 | ] eqn:Hc.
  - rewrite (get_jira_agent_cached w s a0 Hc). by intros [= <- <-].
  - rewrite (get_jira_agent_fresh w s Hc).
    destruct (create_jira_mcp_agent w s) as [[jira_agent mcp_client] s0 | e s0 | s0];
      [ | discriminate | discriminate].
    by intros [= <- <-].
Qed.

(** One call attempts at most one discovery and one agent construction. *)
Lemma get_jira_agent_calls (w : World) (s : PState) :
  discoveries (trace (final_state (get_jira_agent w s))) ≤ S (discoveries (trace s))
  ∧ agent_constructions (trace (final_state (get_jira_agent w s)))
      ≤ S (agent_constructions (trace s)).
Proof.
  destruct (g_jira_agent s) as [a0 | ] eqn:Hc.
  - rewrite (get_jira_agent_cached w s a0 Hc). simpl. lia.
  - rewrite (get_jira_agent_fresh w s Hc), create_jira_mcp_agent_eq,
      create_mcp_client_eq.
    unfold discoveries, agent_constructions, connecting.
    destruct (w_mcp_client w mcp_servers) as [e | ].
    { reduce_state. rewrite connections_app, constructed_agents_app, !length_app.
      simpl. lia. }
    destruct (w_get_tools w (next_id s) mcp_servers) as [e | found].
    { reduce_state. rewrite !connections_app, !constructed_agents_app, !length_app.
      simpl. lia. }
    reduce_state.
    destruct (g_client s) as [c | ].
    2:{ reduce_state. rewrite !connections_app, !constructed_agents_app, !length_app.
        simpl. lia. }
    destruct (w_chat_agent w (jira_agent_args c found)) as [e | ];
      reduce_state;
      rewrite !connections_app, !constructed_agents_app, !length_app;
      simpl; lia.
Qed.



Example jira_agent_three_calls :
  ∃ s1, get_jira_agent_times cooperative_world 3
          (final_state (configure_client cooperative_world github_environ initial_state))
        = Returned [2; 2; 2] s1
        ∧ connections (trace s1) = [1]
        ∧ constructed_agents (trace s1) = [2].
Proof. eexists. split; [vm_compute; reflexivity | ]. split; reflexivity. Qed.

(** ** The supervisor and the top-level request *)

Lemma create_supervisor_agent_eq (w : World) (s : PState) :
  create_supervisor_agent w s =
    match get_jira_agent w s with
    | Returned jira_agent s1 =>
        match g_client s1 with
        | None => Raised (NameError "client") s1
        | Some c =>
            match w_chat_agent w (supervisor_args c jira_agent) with
            | Some e =>
                Raised e (log_event (EvChatAgent (next_id s1)
                                       (supervisor_args c jira_agent)) s1)
            | None =>
                Returned (next_id s1)
                  (store_object (ChatAgentObj (supervisor_args c jira_agent))
                     (log_event (EvChatAgent (next_id s1)
                                   (supervisor_args c jira_agent)) s1))
            end
        end
    | Raised e s1 => Raised e s1
    | Diverged s1 => Diverged s1
    end.
Proof.
  unfold create_supervisor_agent. unfold bind at 1.
  destruct (get_jira_agent w s) as [jira_agent s1 | e s1 | s1];
    [ | reflexivity | reflexivity].
  unfold read_client, new_chat_agent, construct, bind, get_state, emit, alloc,
    raise, ret.
  destruct (g_client s1) as [c | ]; [ | reflexivity].
  destruct (w_chat_agent w (supervisor_args c jira_agent)); reflexivity.
Qed.

Lemma main_eq (w : World) (s : PState) :
  main w s =
    match create_supervisor_agent w s with
    | Returned supervisor s1 =>
        match w_run w (heap s1) supervisor request with
        | RunCompleted rounds text =>
            Returned tt (log_event (EvPrint text)
                           (log_event (EvRunReturned rounds) (running supervisor s1)))
        | RunFailed rounds e =>
            Raised e (log_event (EvRunRaised rounds) (running supervisor s1))
        | RunDiverges => Diverged (running supervisor s1)
        end
    | Raised e s1 => Raised e s1
    | Diverged s1 => Diverged s1
    end.
Proof.
  unfold main. unfold bind at 1.
  destruct (create_supervisor_agent w s) as [supervisor s1 | e s1 | s1];
    [ | reflexivity | reflexivity].
  unfold print, agent_run, bind, get_state, emit, raise, ret. reduce_state.
  destruct (w_run w (heap s1) supervisor request); reflexivity.
Qed.


Example supervisor_in_cooperative_world :
  create_supervisor_agent cooperative_world
    (final_state (configure_client cooperative_world github_environ initial_state))
  = Returned 3
      (final_state (create_supervisor_agent cooperative_world
         (final_state (configure_client cooperative_world github_environ initial_state))))
  ∧ heap (final_state (run_script cooperative_world ∅ github_environ)) !! 3
    = Some (ChatAgentObj (supervisor_args 0 2)).
Proof. split; vm_compute; reflexivity. Qed.




(** ** Setup makes setup calls only *)











Lemma run_script_eq (w : World) (dotenv os_environ : environ) :
  run_script w dotenv os_environ =
    match configure_client w (load_dotenv_override dotenv os_environ) initial_state with
    | Returned _ s0 => main w s0
    | Raised e s0 => Raised e s0
    | Diverged s0 => Diverged s0
    end.
Proof. reflexivity. Qed.

(** ** Exit status *)



(** ** Teardown *)


(** On a successful run the client made by discovery has been connected, is
    still referenced by [_mcp_client] when the program exits with status 0,
    and was never torn down. *)
Example connection_left_open :
  exit_status (run_script cooperative_world ∅ github_environ) = Some 0
  ∧ connections (trace (final_state (run_script cooperative_world ∅ github_environ))) = [1]
  ∧ g_mcp_client (final_state (run_script cooperative_world ∅ github_environ)) = Some 1
  ∧ released (trace (final_state (run_script cooperative_world ∅ github_environ))) = [].
Proof. repeat split; vm_compute; reflexivity. Qed.

(** When discovery succeeds and a later step raises, the program exits with
    status 1; the connected client was not torn down, and it was not even
    stored in [_mcp_client]. *)
Example connection_lost_on_later_failure :
  exit_status (run_script agent_failure_world ∅ github_environ) = Some 1
  ∧ connections (trace (final_state (run_script agent_failure_world ∅ github_environ))) = [1]
  ∧ g_mcp_client (final_state (run_script agent_failure_world ∅ github_environ)) = None
  ∧ released (trace (final_state (run_script agent_failure_world ∅ github_environ))) = [].
Proof. repeat split; vm_compute; reflexivity. Qed.

(** * Further properties of the script *)

(** ** Which variables configure the client *)



(** X2. Which arguments the script hands over as [None]. The model is
    missing only for the azure profile with [AZURE_OPENAI_CHAT_DEPLOYMENT]
    unset, the key only for the OpenAI profile with [OPENAI_API_KEY] unset,
    and the base URL exactly for the OpenAI profile. *)
Theorem client_args_none_arguments (env : environ) (a : ClientArgs) :
  client_args env = inr a →
  (model_id a = None ↔
     API_HOST env = "azure" ∧ env !! "AZURE_OPENAI_CHAT_DEPLOYMENT" = None)
  ∧ (api_key a = NoKey ↔
       named_provider (API_HOST env) = false ∧ env !! "OPENAI_API_KEY" = None)
  ∧ (base_url a = None ↔ named_provider (API_HOST env) = false).
Proof.
  unfold client_args, named_provider, environ_get, environ_item.
  destruct (String.eqb_spec (API_HOST env) "azure") as [Ha | Ha].
  { destruct (env !! "AZURE_OPENAI_ENDPOINT"); [ | discriminate].
    intros [= <-]. simpl. repeat split; try done; intros []; done. }
  destruct (String.eqb_spec (API_HOST env) "github") as [Hg | Hg].
  { destruct (env !! "GITHUB_TOKEN"); [ | discriminate].
    intros [= <-]. simpl. repeat split; try done; intros []; done. }
  destruct (String.eqb_spec (API_HOST env) "ollama") as [Ho | Ho].
  { intros [= <-]. simpl. repeat split; try done; intros []; done. }
  intros [= <-]. simpl.
  destruct (env !! "OPENAI_API_KEY"); simpl;
    repeat split; try done; intros []; done.
Qed.

Lemma client_args_none_arguments_witness :
  ∃ a, client_args azure_no_deployment = inr a ∧ model_id a = None
       ∧ api_key a ≠ NoKey.
Proof.
  eexists. split; [vm_compute; reflexivity | ].
  assert (H : client_args azure_no_deployment =
    inr {| base_url := Some "https://res.openai.azure.com/openai/v1/";
           api_key := BearerTokenProvider "https://cognitiveservices.azure.com/.default";
           model_id := None |}) by (vm_compute; reflexivity).
  destruct (client_args_none_arguments azure_no_deployment _ H) as (Hm & Hk & _).
  split; [apply Hm; split; vm_compute; reflexivity | discriminate].
Defined.


Example dotenv_selects_provider :
  client_args (load_dotenv_override {[ "API_HOST" := "ollama" ]}
                 {[ "API_HOST" := "github"; "GITHUB_TOKEN" := "t0k" ]})
  = inr {| base_url := Some "http://localhost:11434/v1";
           api_key := StaticKey "none";
           model_id := Some "llama3.1:latest" |}.
Proof. vm_compute. reflexivity. Qed.

(** ** What the cached accessor builds, and what it leaves on failure *)

(** With an empty cache, the accessor either raises, leaving the cache
    empty, or returns after every call succeeded, in the state
    [jira_agent_cached]. *)
Lemma get_jira_agent_fresh_cases (w : World) (s : PState) :
  g_jira_agent s = None →
  match get_jira_agent w s with
  | Returned a s1 =>
      ∃ c found,
        g_client s = Some c
        ∧ w_mcp_client w mcp_servers = None
        ∧ w_get_tools w (next_id s) mcp_servers = inr found
        ∧ w_chat_agent w (jira_agent_args c found) = None
        ∧ a = S (next_id s)
        ∧ s1 = jira_agent_cached c found s
  | Raised e s1 =>
      g_jira_agent s1 = None ∧ g_mcp_client s1 = g_mcp_client s
      ∧ g_client s1 = g_client s
  | Diverged _ => False
  end.
Proof.
  intros Hc.
  rewrite (get_jira_agent_fresh w s Hc), create_jira_mcp_agent_eq,
    create_mcp_client_eq.
  destruct (w_mcp_client w mcp_servers) as [e | ] eqn:Hnew; [done | ].
  destruct (w_get_tools w (next_id s) mcp_servers) as [e | found] eqn:Hfound;
    [done | ].
  unfold connecting. reduce_state.
  destruct (g_client s) as [c | ] eqn:Hclient; [ | done].
  destruct (w_chat_agent w (jira_agent_args c found)) as [e | ] eqn:Hagent; [done | ].
  exists c, found. done.
Qed.

(** X4. A call of [get_jira_agent] that raises leaves the cache as it was,
    empty, with no client bound to [_mcp_client]; and unless it was the MCP
    client constructor that raised, the next call attempts discovery again,
    on a new client object. *)
Theorem failed_call_leaves_cache_empty
    (w : World) (s s' : PState) (e : exception) :
  get_jira_agent w s = Raised e s' →
  g_jira_agent s = None ∧ g_jira_agent s' = None
  ∧ g_mcp_client s' = g_mcp_client s
  ∧ (w_mcp_client w mcp_servers = None →
     connections (trace (final_state (get_jira_agent w s')))
       = connections (trace s') ++ [next_id s']).
Proof.
  intros Hraise.
  destruct (g_jira_agent s) as [a | ] eqn:Hc.
  { rewrite (get_jira_agent_cached w s a Hc) in Hraise. discriminate. }
  pose proof (get_jira_agent_fresh_cases w s Hc) as Hcases.
  rewrite Hraise in Hcases. destruct Hcases as (Hc' & Hm & _).
  do 3 (split; [done | ]).
  intros Hnew.
  rewrite (get_jira_agent_fresh w s' Hc'), create_jira_mcp_agent_eq,
    create_mcp_client_eq, Hnew.
  destruct (w_get_tools w (next_id s') mcp_servers) as [e1 | found].
  { unfold connecting. reduce_state. rewrite !connections_app. simpl.
    by rewrite app_nil_r. }
  unfold connecting. reduce_state.
  destruct (g_client s') as [c | ].
  2:{ reduce_state. rewrite !connections_app. simpl. by rewrite !app_nil_r. }
  destruct (w_chat_agent w (jira_agent_args c found)); reduce_state;
    rewrite !connections_app; simpl; by rewrite !app_nil_r.
Qed.

Lemma failed_call_leaves_cache_empty_witness :
  ∃ s s' e,
    get_jira_agent agent_failure_world s = Raised e s'
    ∧ g_jira_agent s' = None
    ∧ connections (trace s') = [1]
    ∧ connections (trace (final_state (get_jira_agent agent_failure_world s'))) = [1; 2].
Proof.
  pose (s := final_state (configure_client agent_failure_world github_environ
                            initial_state)).
  assert (H : get_jira_agent agent_failure_world s
              = Raised (PyExc "ValueError" "invalid tool")
                  (final_state (get_jira_agent agent_failure_world s)))
    by (vm_compute; reflexivity).
  eexists s, _, _. split; [exact H | ].
  destruct (failed_call_leaves_cache_empty agent_failure_world s _ _ H)
    as (_ & Hc & _ & Hretry).
  split; [exact Hc | ].
  split; [vm_compute; reflexivity | ].
  rewrite (Hretry eq_refl). vm_compute. reflexivity.
Defined.



(** ** The supervisor and its delegate *)



(** X7. Supervisors are not cached but the Jira agent is: two successive
    calls of [create_supervisor_agent] that return give two different
    supervisor objects delegating to the same Jira agent over the same chat
    client, with at most one discovery between them. *)
Theorem two_supervisors_share_jira_agent
    (w : World) (s s' : PState) (first second : nat) :
  create_supervisor_twice w s = Returned (first, second) s' →
  first ≠ second
  ∧ ∃ c jira_agent,
      heap s' !! first = Some (ChatAgentObj (supervisor_args c jira_agent))
      ∧ heap s' !! second = Some (ChatAgentObj (supervisor_args c jira_agent))
      ∧ g_jira_agent s' = Some jira_agent
      ∧ discoveries (trace s') ≤ S (discoveries (trace s)).
Proof.
  unfold create_supervisor_twice. unfold bind at 1.
  rewrite create_supervisor_agent_eq.
  pose proof (get_jira_agent_calls w s) as [Hcalls _].
  destruct (get_jira_agent w s) as [jira_agent s1 | e s1 | s1] eqn:Hget;
    [ | discriminate | discriminate].
  apply get_jira_agent_fills in Hget. simpl in Hcalls.
  destruct (g_client s1) as [c | ] eqn:Hclient; [ | discriminate].
  destruct (w_chat_agent w (supervisor_args c jira_agent)) eqn:Hagent;
    [discriminate | ].
  unfold bind at 1. rewrite create_supervisor_agent_eq.
  rewrite (get_jira_agent_cached w _ jira_agent) by exact Hget.
  reduce_state. rewrite Hclient, Hagent. unfold ret.
  intros [= <- <- <-]. reduce_state.
  split; [lia | ].
  exists c, jira_agent.
  split; [rewrite lookup_insert_ne by lia; apply lookup_insert_eq | ].
  split; [apply lookup_insert_eq | ].
  split; [exact Hget | ].
  unfold discoveries in *. rewrite !connections_app. simpl.
  rewrite !app_nil_r. exact Hcalls.
Qed.

Lemma two_supervisors_share_jira_agent_witness :
  ∃ s s' c jira_agent,
    create_supervisor_twice cooperative_world s = Returned (3, 4) s'
    ∧ heap s' !! 3 = Some (ChatAgentObj (supervisor_args c jira_agent))
    ∧ heap s' !! 4 = Some (ChatAgentObj (supervisor_args c jira_agent))
    ∧ connections (trace s') = [1].
Proof.
  pose (s := final_state (configure_client cooperative_world github_environ
                            initial_state)).
  assert (H : create_supervisor_twice cooperative_world s
              = Returned (3, 4) (final_state (create_supervisor_twice cooperative_world s)))
    by (vm_compute; reflexivity).
  destruct (two_supervisors_share_jira_agent cooperative_world s _ 3 4 H)
    as (_ & c & j & H3 & H4 & _ & _).
  exists s, (final_state (create_supervisor_twice cooperative_world s)), c, j.
  split; [exact H | ]. split; [exact H3 | ]. split; [exact H4 | ].
  vm_compute. reflexivity.
Defined.

(** ** The whole program *)

Lemma configure_client_eq (w : World) (env : environ) (s : PState) :
  configure_client w env s =
    match client_args env with
    | inl e => Raised e s
    | inr a =>
        match w_chat_client w a with
        | Some e => Raised e (log_event (EvChatClient (next_id s) a) s)
        | None =>
            Returned tt
              (bind_client (next_id s)
                 (store_object (ChatClientObj a)
                    (log_event (EvChatClient (next_id s) a) s)))
        end
    end.
Proof.
  unfold configure_client.
  destruct (client_args env) as [e | a]; [reflexivity | ].
  unfold_script. destruct (w_chat_client w a); reflexivity.
Qed.










(** X10. Whatever the outside world answers, one run of the program
    constructs at most one chat client and one MCP client, attempts at most
    one discovery, constructs at most two agents and gives at most one
    request to an agent. *)
Theorem script_call_bounds (w : World) (dotenv os_environ : environ) :
  length (chat_clients (trace (final_state (run_script w dotenv os_environ)))) ≤ 1
  ∧ length (mcp_clients (trace (final_state (run_script w dotenv os_environ)))) ≤ 1
  ∧ discoveries (trace (final_state (run_script w dotenv os_environ))) ≤ 1
  ∧ agent_constructions (trace (final_state (run_script w dotenv os_environ))) ≤ 2
  ∧ length (run_requests (trace (final_state (run_script w dotenv os_environ)))) ≤ 1.
Proof.
  unfold discoveries, agent_constructions.
  rewrite run_script_eq, configure_client_eq.
  destruct (client_args (load_dotenv_override dotenv os_environ)) as [e | a];
    [simpl; lia | ].
  destruct (w_chat_client w a); [simpl; lia | ].
  rewrite main_eq, create_supervisor_agent_eq.
  rewrite get_jira_agent_fresh by reflexivity.
  rewrite create_jira_mcp_agent_eq, create_mcp_client_eq.
  unfold connecting, running.
  destruct (w_mcp_client w mcp_servers); [simpl; lia | ].
  reduce_state. cbn [initial_state next_id].
  destruct (w_get_tools w 1 mcp_servers) as [e | found]; [simpl; lia | ].
  reduce_state. cbn [initial_state next_id].
  destruct (w_chat_agent w (jira_agent_args 0 found)); [simpl; lia | ].
  reduce_state. cbn [initial_state next_id].
  destruct (w_chat_agent w (supervisor_args 0 2)); [simpl; lia | ].
  destruct (w_run w _ 3 request); simpl; lia.
Qed.


